(** * sessionup: a shallow embedding of [manager.go]

    The session manager of sessionup: session creation ([Init]), the
    authentication middleware ([Auth]), revocation ([Revoke],
    [RevokeOther], [RevokeAll]) and enumeration ([FetchAll]).

    Effects are recorded in a trace: every store call, every cookie written
    to the response, every invocation of the rejection handler and of the
    next handler is an [event].  The store is pluggable in the source, so it
    is modelled as an oracle: a record of the answers each store method
    gives.  Time is a [Z] count of nanoseconds since Go's zero [time.Time]
    (January 1, year 1, UTC); the zero time is [0]. *)

From Stdlib Require Import String List ZArith Bool Lia.
Import ListNotations.
Open Scope string_scope.
Open Scope Z_scope.

(** ** Data model *)

(** [time.Time] as nanoseconds since the zero time; [time.Duration]. *)
Definition Time := Z.
Definition Duration := Z.

(** [time.Time.After]. *)
Definition After (t u : Time) : bool := u <? t.

Definition Nanosecond : Duration := 1.
Definition Hour : Duration := 3600 * 1000000000.

(** Modelled from the spec: the [Session] struct (session.go is not part of
    the sources).  [IP] and the user agent are kept as strings. *)
Record Session := mkSession {
  Current : bool;
  CreatedAt : Time;
  ExpiresAt : Time;
  ID : string;
  UserKey : string;
  IP : string;
  UserAgent : string
}.

(** The zero value [Session{}]. *)
Definition zero_session : Session :=
  {| Current := false; CreatedAt := 0; ExpiresAt := 0; ID := "";
     UserKey := ""; IP := ""; UserAgent := "" |}.

(** [s.Current = b], the assignment in the loop of [FetchAll]. *)
Definition set_current (s : Session) (b : bool) : Session :=
  {| Current := b; CreatedAt := CreatedAt s; ExpiresAt := ExpiresAt s;
     ID := ID s; UserKey := UserKey s; IP := IP s; UserAgent := UserAgent s |}.

(** Errors that reach the rejection handler or the caller. *)
Inductive error :=
| ErrNoCookie                 (* http.ErrNoCookie, a not-found error *)
| ErrUnauthorized             (* errors.New("unauthorized") *)
| StoreErr (msg : string).    (* anything the store returns *)

(** [http.SameSite]. *)
Inductive SameSite :=
| SameSiteDefaultMode | SameSiteLaxMode | SameSiteStrictMode | SameSiteNoneMode.

(** [http.Cookie], restricted to the fields [setCookie] fills. *)
Record Cookie := mkCookie {
  c_Name : string;
  c_Value : string;
  c_Path : string;
  c_Domain : string;
  c_Expires : Time;
  c_Secure : bool;
  c_HttpOnly : bool;
  c_SameSite : SameSite
}.

(** Modelled from the spec: the request context and its binder
    ([newContext] and [FromContext], context.go is not part of the
    sources).  A context either carries a session value or it does not. *)
Record Context := mkContext { ctx_session : option Session }.

Definition background : Context := {| ctx_session := None |}.

Definition newContext (ctx : Context) (s : Session) : Context :=
  {| ctx_session := Some s |}.

(** [s, ok := ctx.Value(key).(Session)]: a failed assertion yields the zero
    session and [false]. *)
Definition FromContext (ctx : Context) : Session * bool :=
  match ctx_session ctx with
  | Some s => (s, true)
  | None => (zero_session, false)
  end.

(** [http.Request]: the parsed cookies in header order, the context, and the
    request data [newSession] reads. *)
Record Request := mkRequest {
  r_cookies : list (string * string);
  r_ctx : Context;
  r_ip : string;
  r_agent : string
}.

(** [r.Cookie(name)]: the first cookie with that name, else [ErrNoCookie]. *)
Fixpoint find_cookie (name : string) (cs : list (string * string)) : option string :=
  match cs with
  | [] => None
  | (n, v) :: rest => if String.eqb n name then Some v else find_cookie name rest
  end.

Definition Request_Cookie (r : Request) (name : string) : string + error :=
  match find_cookie name (r_cookies r) with
  | Some v => inl v
  | None => inr ErrNoCookie
  end.

(** [r.WithContext(ctx)]. *)
Definition WithContext (r : Request) (ctx : Context) : Request :=
  {| r_cookies := r_cookies r; r_ctx := ctx; r_ip := r_ip r; r_agent := r_agent r |}.

(** The [Store] interface, as the answers of an implementation.
    [FetchByUserKey] answers a slice: [None] is the nil slice, [Some l] a
    non-nil one. *)
Record Store := mkStore {
  st_Create : Session -> option error;
  st_FetchByID : string -> Session * bool * option error;
  st_DeleteByID : string -> option error;
  st_FetchByUserKey : string -> option (list Session) * option error;
  st_DeleteByUserKey : string -> list string -> option error
}.

(** The [Manager] struct; [reject] is observed through [EvReject]. *)
Record Manager := mkManager {
  store : Store;
  cookie_name : string;
  cookie_domain : string;
  cookie_path : string;
  cookie_secure : bool;
  cookie_httpOnly : bool;
  cookie_sameSite : SameSite;
  expiresIn : Duration;
  withIP : bool;
  withAgent : bool;
  genID : unit -> string
}.

(** ** Effects *)

Inductive event :=
| EvCreate (s : Session)
| EvFetchByID (id : string)
| EvDeleteByID (id : string)
| EvFetchByUserKey (key : string)
| EvDeleteByUserKey (key : string) (excl : list string)
| EvSetCookie (c : Cookie)
| EvReject (e : error)        (* m.reject(e).ServeHTTP(w, r) *)
| EvNext (r : Request).       (* next.ServeHTTP(w, r) *)

(** A writer monad over the trace of events. *)
Definition M (A : Type) : Type := (A * list event)%type.

Definition ret {A} (a : A) : M A := (a, []).

Definition bind {A B} (m : M A) (f : A -> M B) : M B :=
  let '(a, t1) := m in let '(b, t2) := f a in (b, (t1 ++ t2)%list).

Definition emit (e : event) : M unit := (tt, [e]).

Notation "'let*' x ':=' m 'in' k" := (bind m (fun x => k))
  (at level 200, x name, m at level 100, right associativity).
Notation "m ;; k" := (bind m (fun _ => k)) (at level 100, right associativity).

(** Store calls: record the call, answer with the implementation. *)
Definition Create (st : Store) (s : Session) : M (option error) :=
  emit (EvCreate s) ;; ret (st_Create st s).
Definition FetchByID (st : Store) (id : string) : M (Session * bool * option error) :=
  emit (EvFetchByID id) ;; ret (st_FetchByID st id).
Definition DeleteByID (st : Store) (id : string) : M (option error) :=
  emit (EvDeleteByID id) ;; ret (st_DeleteByID st id).
Definition FetchByUserKey (st : Store) (key : string)
  : M (option (list Session) * option error) :=
  emit (EvFetchByUserKey key) ;; ret (st_FetchByUserKey st key).
Definition DeleteByUserKey (st : Store) (key : string) (excl : list string)
  : M (option error) :=
  emit (EvDeleteByUserKey key excl) ;; ret (st_DeleteByUserKey st key excl).

(** ** Session creation *)

(** Modelled from the spec: [newSession] (session.go is not part of the
    sources).  A fresh ID from [genID], [CreatedAt] the current time,
    [ExpiresAt] the current time plus [expiresIn] or zero when no duration is
    configured, IP and user agent captured only when enabled. *)
Definition newSession (m : Manager) (now : Time) (r : Request) (key : string) : Session :=
  {| Current := false;
     CreatedAt := now;
     ExpiresAt := if expiresIn m =? 0 then 0 else now + expiresIn m;
     ID := genID m tt;
     UserKey := key;
     IP := if withIP m then r_ip r else "";
     UserAgent := if withAgent m then r_agent r else "" |}.

(** [setCookie]. *)
Definition setCookie (m : Manager) (exp : Time) (tok : string) : M unit :=
  emit (EvSetCookie
    {| c_Name := cookie_name m; c_Value := tok; c_Path := cookie_path m;
       c_Domain := cookie_domain m; c_Expires := exp; c_Secure := cookie_secure m;
       c_HttpOnly := cookie_httpOnly m; c_SameSite := cookie_sameSite m |}).

(** [deleteCookie]: [time.Now().Add(-time.Hour*24*30)]. *)
Definition deleteCookie (m : Manager) (now : Time) : M unit :=
  setCookie m (now + - (Hour * 24 * 30)) "".

(** ** Manager operations; [now] is the value of [time.Now()]. *)

Definition Init (m : Manager) (now : Time) (r : Request) (key : string) : M (option error) :=
  let s := newSession m now r key in
  let finish := setCookie m (ExpiresAt s) (ID s) ;; ret None in
  if After (ExpiresAt s) 0 then
    let* err := Create (store m) s in
    match err with
    | Some e => ret (Some e)
    | None => finish
    end
  else finish.

(** The handler [Auth(next)] serving request [r]. *)
Definition Auth (m : Manager) (r : Request) : M unit :=
  match Request_Cookie r (cookie_name m) with
  | inr err => emit (EvReject err)
  | inl c =>
      let ctx := r_ctx r in
      let* res := FetchByID (store m) c in
      let '(s, ok, err) := res in
      match err with
      | Some e => emit (EvReject e)
      | None =>
          if negb ok then emit (EvReject ErrUnauthorized)
          else emit (EvNext (WithContext r (newContext ctx s)))
      end
  end.

Definition Revoke (m : Manager) (now : Time) (ctx : Context) : M (option error) :=
  let '(s, ok) := FromContext ctx in
  if negb ok then ret None
  else
    let* err := DeleteByID (store m) (ID s) in
    match err with
    | Some e => ret (Some e)
    | None => deleteCookie m now ;; ret None
    end.

Definition RevokeOther (m : Manager) (ctx : Context) (key : string) : M (option error) :=
  let '(s, _) := FromContext ctx in
  DeleteByUserKey (store m) key [ID s].

Definition RevokeAll (m : Manager) (now : Time) (ctx : Context) (key : string)
  : M (option error) :=
  let* err := DeleteByUserKey (store m) key [] in
  match err with
  | Some e => ret (Some e)
  | None => deleteCookie m now ;; ret None
  end.

(** The loop of [FetchAll]: the first session with ID [id] gets
    [Current = true], then [break]. *)
Fixpoint mark_current (id : string) (ss : list Session) : list Session :=
  match ss with
  | [] => []
  | s :: rest =>
      if String.eqb (ID s) id then set_current s true :: rest
      else s :: mark_current id rest
  end.

Definition FetchAll (m : Manager) (ctx : Context) (key : string)
  : M (option (list Session) * option error) :=
  let* res := FetchByUserKey (store m) key in
  let '(ss, err) := res in
  match err with
  | Some e => ret (None, Some e)
  | None =>
      match ss with
      | None => ret (None, None)
      | Some l =>
          let '(cs, ok) := FromContext ctx in
          if negb ok then ret (Some l, None)
          else ret (Some (mark_current (ID cs) l), None)
      end
  end.

(** Modelled from the spec: the effect of the store's [DeleteByUserKey] on
    the stored sessions, for an in-memory store: every session of [key]
    whose ID is not excluded is removed. *)
Definition mem_DeleteByUserKey (db : list Session) (key : string) (excl : list string)
  : list Session :=
  filter (fun s => negb (String.eqb (UserKey s) key
                         && negb (existsb (String.eqb (ID s)) excl))) db.

(** Events by kind. *)
Definition is_store_call (e : event) : bool :=
  match e with
  | EvCreate _ | EvFetchByID _ | EvDeleteByID _ | EvFetchByUserKey _
  | EvDeleteByUserKey _ _ => true
  | _ => false
  end.

Definition is_cookie_write (e : event) : bool :=
  match e with EvSetCookie _ => true | _ => false end.

Definition is_create (e : event) : bool :=
  match e with EvCreate _ => true | _ => false end.

Definition is_next (e : event) : bool :=
  match e with EvNext _ => true | _ => false end.

Definition is_reject (e : event) : bool :=
  match e with EvReject _ => true | _ => false end.

Definition is_handler_call (e : event) : bool := is_next e || is_reject e.

(** The configured attributes of the session cookie. *)
Definition configured_cookie (m : Manager) (c : Cookie) : Prop :=
  c_Name c = cookie_name m /\ c_Path c = cookie_path m /\ c_Domain c = cookie_domain m
  /\ c_Secure c = cookie_secure m /\ c_HttpOnly c = cookie_httpOnly m
  /\ c_SameSite c = cookie_sameSite m.

(** ** Configuration: options, [NewManager], [Defaults], [Clone] *)

(** The unexported [setter] type: outside the package a setter can only be
    built by the exported option functions, one constructor each.  [Reject]
    is left out: the manager model observes the rejection handler only
    through [EvReject]. *)
Inductive setter :=
| CookieName (n : string)
| Domain (d : string)
| Path (p : string)
| Secure (s : bool)
| HttpOnly (h : bool)
| SameSite' (s : SameSite)
| ExpiresIn (e : Duration)
| WithIP (w : bool)
| WithAgent (w : bool)
| GenID (g : unit -> string).

(** [o(m)]: each option writes its one field. *)
Definition apply_setter (o : setter) (m : Manager) : Manager :=
  let '(mkManager st nm dom pth sec ho ss exp wip wag gid) := m in
  match o with
  | CookieName n => mkManager st n dom pth sec ho ss exp wip wag gid
  | Domain d => mkManager st nm d pth sec ho ss exp wip wag gid
  | Path p => mkManager st nm dom p sec ho ss exp wip wag gid
  | Secure s => mkManager st nm dom pth s ho ss exp wip wag gid
  | HttpOnly h => mkManager st nm dom pth sec h ss exp wip wag gid
  | SameSite' s => mkManager st nm dom pth sec ho s exp wip wag gid
  | ExpiresIn e => mkManager st nm dom pth sec ho ss e wip wag gid
  | WithIP w => mkManager st nm dom pth sec ho ss exp w wag gid
  | WithAgent w => mkManager st nm dom pth sec ho ss exp wip w gid
  | GenID g => mkManager st nm dom pth sec ho ss exp wip wag g
  end.

(** [for _, o := range opts { o(m) }]. *)
Definition apply_all (opts : list setter) (m : Manager) : Manager :=
  fold_left (fun m o => apply_setter o m) opts m.

(** The field an option writes, read back from a manager as that option. *)
Definition current_setting (o : setter) (m : Manager) : setter :=
  match o with
  | CookieName _ => CookieName (cookie_name m)
  | Domain _ => Domain (cookie_domain m)
  | Path _ => Path (cookie_path m)
  | Secure _ => Secure (cookie_secure m)
  | HttpOnly _ => HttpOnly (cookie_httpOnly m)
  | SameSite' _ => SameSite' (cookie_sameSite m)
  | ExpiresIn _ => ExpiresIn (expiresIn m)
  | WithIP _ => WithIP (withIP m)
  | WithAgent _ => WithAgent (withAgent m)
  | GenID _ => GenID (genID m)
  end.

(** Whether two options write the same field. *)
Definition same_field (o o' : setter) : bool :=
  match o, o' with
  | CookieName _, CookieName _ | Domain _, Domain _ | Path _, Path _
  | Secure _, Secure _ | HttpOnly _, HttpOnly _ | SameSite' _, SameSite' _
  | ExpiresIn _, ExpiresIn _ | WithIP _, WithIP _ | WithAgent _, WithAgent _
  | GenID _, GenID _ => true
  | _, _ => false
  end.

Section Construction.

(** [DefaultGenID] returns [uniuri.NewLen(idLen)], a random string from an
    external library; it is a parameter of the construction. *)
Variable DefaultGenID : unit -> string.

(** [&Manager{store: s}]: every other field at its zero value (a nil
    [genID], whose place [Defaults] fills, is shown as the empty ID). *)
Definition zero_manager (s : Store) : Manager :=
  {| store := s; cookie_name := ""; cookie_domain := ""; cookie_path := "";
     cookie_secure := false; cookie_httpOnly := false;
     cookie_sameSite := SameSiteDefaultMode; expiresIn := 0;
     withIP := false; withAgent := false; genID := fun _ => "" |}.

(** [Defaults]: the domain and the duration are left as they are. *)
Definition Defaults (m : Manager) : Manager :=
  {| store := store m; cookie_name := "sessionup"; cookie_domain := cookie_domain m;
     cookie_path := "/"; cookie_secure := true; cookie_httpOnly := true;
     cookie_sameSite := SameSiteStrictMode; expiresIn := expiresIn m;
     withIP := true; withAgent := true; genID := DefaultGenID |}.

Definition NewManager (s : Store) (opts : list setter) : Manager :=
  apply_all opts (Defaults (zero_manager s)).

End Construction.

(** [Clone]: a copy of [m] with [opts] applied. *)
Definition Clone (m : Manager) (opts : list setter) : Manager :=
  apply_all opts m.

(** [m] with another store. *)
Definition with_store (m : Manager) (st : Store) : Manager :=
  {| store := st; cookie_name := cookie_name m; cookie_domain := cookie_domain m;
     cookie_path := cookie_path m; cookie_secure := cookie_secure m;
     cookie_httpOnly := cookie_httpOnly m; cookie_sameSite := cookie_sameSite m;
     expiresIn := expiresIn m; withIP := withIP m; withAgent := withAgent m;
     genID := genID m |}.

(** ** An in-memory store *)

(** Modelled from the spec: a store that keeps sessions in a list (no store
    implementation is part of the sources).  Writes succeed; [FetchByID]
    finds the first session with the ID; [FetchByUserKey] answers nil when
    no session has the key, as the [Store] contract asks. *)
Fixpoint mem_FetchByID (db : list Session) (id : string) : Session * bool * option error :=
  match db with
  | [] => (zero_session, false, None)
  | s :: rest => if String.eqb (ID s) id then (s, true, None) else mem_FetchByID rest id
  end.

Definition mem_FetchByUserKey (db : list Session) (key : string)
  : option (list Session) * option error :=
  match filter (fun s => String.eqb (UserKey s) key) db with
  | [] => (None, None)
  | l => (Some l, None)
  end.

Definition mem_store (db : list Session) : Store :=
  {| st_Create := fun _ => None;
     st_FetchByID := mem_FetchByID db;
     st_DeleteByID := fun _ => None;
     st_FetchByUserKey := mem_FetchByUserKey db;
     st_DeleteByUserKey := fun _ _ => None |}.

(** Modelled from the spec: the effect of one store call on the list. *)
Definition mem_apply (db : list Session) (e : event) : list Session :=
  match e with
  | EvCreate s => s :: db
  | EvDeleteByID id => filter (fun s => negb (String.eqb (ID s) id)) db
  | EvDeleteByUserKey key excl => mem_DeleteByUserKey db key excl
  | _ => db
  end.

(** The stored sessions after the store calls of a trace. *)
Definition persist (db : list Session) (tr : list event) : list Session :=
  fold_left mem_apply tr db.

(** A request that carries one cookie. *)
Definition cookie_request (c : Cookie) : Request :=
  {| r_cookies := [(c_Name c, c_Value c)]; r_ctx := background; r_ip := ""; r_agent := "" |}.

(** A request carrying the session cookie [id] under [name]. *)
Definition session_request (name id : string) : Request :=
  {| r_cookies := [(name, id)]; r_ctx := background; r_ip := ""; r_agent := "" |}.

(** ** Concrete configurations, used to run the operations *)

(** October 19, 2026, 00:00 UTC in nanoseconds since the zero time. *)
Definition now2026 : Time := 63927964800 * 1000000000.

Definition alice_session : Session :=
  {| Current := false; CreatedAt := now2026; ExpiresAt := now2026 + Hour;
     ID := "abc"; UserKey := "alice"; IP := "10.0.0.1"; UserAgent := "curl" |}.

(** A store that knows [alice_session] and never fails. *)
Definition alice_store : Store :=
  {| st_Create := fun _ => None;
     st_FetchByID := fun id =>
       if String.eqb id "abc" then (alice_session, true, None)
       else (zero_session, false, None);
     st_DeleteByID := fun _ => None;
     st_FetchByUserKey := fun k =>
       if String.eqb k "alice" then (Some [alice_session], None) else (None, None);
     st_DeleteByUserKey := fun _ _ => None |}.

(** A store whose every call fails; its key lookup answers an empty non-nil
    slice. *)
Definition down_store : Store :=
  {| st_Create := fun _ => Some (StoreErr "down");
     st_FetchByID := fun _ => (zero_session, false, Some (StoreErr "down"));
     st_DeleteByID := fun _ => Some (StoreErr "down");
     st_FetchByUserKey := fun _ => (Some [], None);
     st_DeleteByUserKey := fun _ _ => Some (StoreErr "down") |}.

(** A store that returns a session whose [Current] flag is set. *)
Definition flagged_store : Store :=
  {| st_Create := fun _ => None;
     st_FetchByID := fun _ => (zero_session, false, None);
     st_DeleteByID := fun _ => None;
     st_FetchByUserKey := fun _ => (Some [set_current alice_session true], None);
     st_DeleteByUserKey := fun _ _ => None |}.

(** A store whose key lookup answers sessions together with an error. *)
Definition partial_store : Store :=
  {| st_Create := fun _ => None;
     st_FetchByID := fun _ => (zero_session, false, None);
     st_DeleteByID := fun _ => None;
     st_FetchByUserKey := fun _ => (Some [alice_session], Some (StoreErr "timeout"));
     st_DeleteByUserKey := fun _ _ => None |}.

(** [NewManager(st, ExpiresIn(time.Hour), GenID(...))] with the defaults. *)
Definition mk_manager (st : Store) : Manager :=
  {| store := st; cookie_name := "sessionup"; cookie_domain := ""; cookie_path := "/";
     cookie_secure := true; cookie_httpOnly := true; cookie_sameSite := SameSiteStrictMode;
     expiresIn := Hour; withIP := true; withAgent := true; genID := fun _ => "abc" |}.

Definition alice_request : Request :=
  {| r_cookies := [("theme", "dark"); ("sessionup", "abc")]; r_ctx := background;
     r_ip := "10.0.0.1"; r_agent := "curl" |}.

Definition plain_request : Request :=
  {| r_cookies := [("theme", "dark")]; r_ctx := background; r_ip := ""; r_agent := "" |}.

(** A request whose session cookie names no stored session. *)
Definition stale_request : Request :=
  {| r_cookies := [("sessionup", "xyz")]; r_ctx := background; r_ip := ""; r_agent := "" |}.

Definition alice_ctx : Context := newContext background alice_session.

(** A session stored under [alice] whose ID is the empty string, as a
    [GenID] returning [""] would produce. *)
Definition blank_session : Session :=
  {| Current := false; CreatedAt := now2026; ExpiresAt := now2026 + Hour;
     ID := ""; UserKey := "alice"; IP := ""; UserAgent := "" |}.

(** Whether the [i]-th entry [s] of [l] is the one the loop of [FetchAll]
    marks for context [ctx]: its ID is the bound session's and no earlier
    entry has that ID. *)
Definition first_match (ctx : Context) (l : list Session) (i : nat) (s : Session) : bool :=
  match ctx_session ctx with
  | Some cs => String.eqb (ID s) (ID cs)
               && negb (existsb (String.eqb (ID cs)) (map ID (firstn i l)))
  | None => false
  end.

(** The cookie [deleteCookie] writes for the default configuration. *)
Definition deletion_cookie_2026 : Cookie :=
  {| c_Name := "sessionup"; c_Value := ""; c_Path := "/"; c_Domain := "";
     c_Expires := now2026 + - (Hour * 24 * 30); c_Secure := true; c_HttpOnly := true;
     c_SameSite := SameSiteStrictMode |}.

(** ** Runs *)

Example auth_alice :
  Auth (mk_manager alice_store) alice_request
  = (tt, [EvFetchByID "abc"; EvNext (WithContext alice_request alice_ctx)]).
Proof. reflexivity. Qed.

Example auth_no_cookie :
  Auth (mk_manager alice_store) plain_request
  = (tt, [EvReject ErrNoCookie]).
Proof. reflexivity. Qed.

Example fetchall_alice :
  fst (FetchAll (mk_manager alice_store) alice_ctx "alice")
  = (Some [set_current alice_session true], None).
Proof. reflexivity. Qed.

Example revokeother_unbound :
  RevokeOther (mk_manager alice_store) background "alice"
  = (None, [EvDeleteByUserKey "alice" [""]]).
Proof. reflexivity. Qed.

Example init_alice :
  snd (Init (mk_manager down_store) now2026 alice_request "alice")
  = [EvCreate (newSession (mk_manager down_store) now2026 alice_request "alice")].
Proof. reflexivity. Qed.

(** ** Properties *)

(** Revocation and enumeration ignore the request's cookies; the helper
    facts below are shared by several proofs. *)
Lemma mem_DeleteByUserKey_In (db : list Session) (key : string) (excl : list string) (s : Session) :
  In s (mem_DeleteByUserKey db key excl)
  <-> In s db /\ (UserKey s <> key \/ In (ID s) excl).
Proof.
  unfold mem_DeleteByUserKey. rewrite filter_In.
  rewrite negb_true_iff, andb_false_iff, negb_false_iff, String.eqb_neq, existsb_exists.
  split; intros [Hin H]; split; auto.
  - destruct H as [H | [x [Hx Heq]]]; [left; exact H | right].
    apply String.eqb_eq in Heq. subst x. exact Hx.
  - destruct H as [H | H]; [left; exact H | right].
    exists (ID s). split; [exact H | apply String.eqb_refl].
Qed.

(** C1: a request whose configured cookie names a session the store finds
    is forwarded once, to the next handler, with exactly that session bound
    to its context; the rejection handler is not called. *)
Theorem Auth_forwards_found_session (m : Manager) (r : Request) (c : string) (s : Session)
  (Hcookie : find_cookie (cookie_name m) (r_cookies r) = Some c)
  (Hfound : st_FetchByID (store m) c = (s, true, None)) :
  exists r',
    snd (Auth m r) = [EvFetchByID c; EvNext r']
    /\ FromContext (r_ctx r') = (s, true)
    /\ r' = WithContext r (newContext (r_ctx r) s)
    /\ filter is_next (snd (Auth m r)) = [EvNext r']
    /\ filter is_reject (snd (Auth m r)) = [].
Proof.
  unfold Auth, Request_Cookie. rewrite Hcookie.
  unfold FetchByID, bind, emit, ret; simpl. rewrite Hfound. simpl.
  eexists. repeat split; reflexivity.
Qed.

Lemma Auth_forwards_found_session_witness :
  find_cookie "sessionup" (r_cookies alice_request) = Some "abc"
  /\ st_FetchByID alice_store "abc" = (alice_session, true, None)
  /\ exists r',
    snd (Auth (mk_manager alice_store) alice_request) = [EvFetchByID "abc"; EvNext r']
    /\ FromContext (r_ctx r') = (alice_session, true)
    /\ r' = WithContext alice_request (newContext (r_ctx alice_request) alice_session)
    /\ filter is_next (snd (Auth (mk_manager alice_store) alice_request)) = [EvNext r']
    /\ filter is_reject (snd (Auth (mk_manager alice_store) alice_request)) = [].
Proof.
  split; [reflexivity | split; [reflexivity |]].
  apply (Auth_forwards_found_session (mk_manager alice_store) alice_request "abc" alice_session);
    reflexivity.
Defined.

(** C2: a request without the configured cookie goes to the rejection
    handler with [http.ErrNoCookie]; no store call, no next handler. *)
Theorem Auth_rejects_missing_cookie (m : Manager) (r : Request)
  (Hnocookie : find_cookie (cookie_name m) (r_cookies r) = None) :
  Auth m r = (tt, [EvReject ErrNoCookie])
  /\ filter is_store_call (snd (Auth m r)) = []
  /\ filter is_next (snd (Auth m r)) = [].
Proof.
  unfold Auth, Request_Cookie. rewrite Hnocookie. repeat split.
Qed.

Lemma Auth_rejects_missing_cookie_witness :
  find_cookie "sessionup" (r_cookies plain_request) = None
  /\ Auth (mk_manager alice_store) plain_request = (tt, [EvReject ErrNoCookie])
  /\ filter is_store_call (snd (Auth (mk_manager alice_store) plain_request)) = []
  /\ filter is_next (snd (Auth (mk_manager alice_store) plain_request)) = [].
Proof.
  split; [reflexivity |].
  apply (Auth_rejects_missing_cookie (mk_manager alice_store) plain_request); reflexivity.
Defined.

(** C3: with a clock past year 293 (so that [now + expiresIn] cannot fall
    below the zero time for any [time.Duration]), [Init] calls the store's
    [Create], once and with the new session, exactly when the session's
    [ExpiresAt] is non-zero; an error of [Create] is returned unchanged and
    no cookie is written. *)
Theorem Init_creates_iff_expiring (m : Manager) (now : Time) (r : Request) (key : string)
  (Hnow : 2 ^ 63 <= now)
  (Hdur : - 2 ^ 63 <= expiresIn m < 2 ^ 63) :
  let s := newSession m now r key in
  filter is_create (snd (Init m now r key))
    = (if ExpiresAt s =? 0 then [] else [EvCreate s])
  /\ (forall e, ExpiresAt s <> 0 -> st_Create (store m) s = Some e ->
        Init m now r key = (Some e, [EvCreate s])
        /\ filter is_cookie_write (snd (Init m now r key)) = []).
Proof.
  intro s.
  assert (Hge : 0 <= ExpiresAt s).
  { subst s; unfold newSession; simpl. destruct (expiresIn m =? 0); lia. }
  assert (Hafter : After (ExpiresAt s) 0 = negb (ExpiresAt s =? 0)).
  { unfold After. destruct (Z.eqb_spec (ExpiresAt s) 0); apply Z.ltb_lt || apply Z.ltb_ge; lia. }
  unfold Init. fold s. rewrite Hafter.
  destruct (Z.eqb_spec (ExpiresAt s) 0) as [Hz | Hnz]; simpl.
  - split; [reflexivity |]. intros e Hne. contradiction.
  - unfold Create, bind, emit, ret; simpl.
    split.
    + destruct (st_Create (store m) s); reflexivity.
    + intros e _ He. rewrite He. split; reflexivity.
Qed.

Lemma Init_creates_iff_expiring_witness :
  2 ^ 63 <= now2026 /\ - 2 ^ 63 <= expiresIn (mk_manager down_store) < 2 ^ 63
  /\ (let s := newSession (mk_manager down_store) now2026 alice_request "alice" in
      filter is_create (snd (Init (mk_manager down_store) now2026 alice_request "alice"))
        = (if ExpiresAt s =? 0 then [] else [EvCreate s])
      /\ (forall e, ExpiresAt s <> 0 -> st_Create down_store s = Some e ->
            Init (mk_manager down_store) now2026 alice_request "alice" = (Some e, [EvCreate s])
            /\ filter is_cookie_write
                 (snd (Init (mk_manager down_store) now2026 alice_request "alice")) = [])).
Proof.
  assert (Hnow : 2 ^ 63 <= now2026) by (apply Z.leb_le; reflexivity).
  assert (Hdur : - 2 ^ 63 <= expiresIn (mk_manager down_store) < 2 ^ 63)
    by (split; [apply Z.leb_le | apply Z.ltb_lt]; reflexivity).
  split; [exact Hnow | split; [exact Hdur |]].
  apply (Init_creates_iff_expiring (mk_manager down_store)); assumption.
Defined.

(** C4: [Revoke] with no bound session succeeds without any store call or
    cookie write; with a bound session it calls [DeleteByID] with its ID,
    returns the store's error without writing a cookie, and deletes the
    cookie only after the store deletion succeeded. *)
Theorem Revoke_spec (m : Manager) (now : Time) (ctx : Context) :
  Revoke m now ctx =
    match ctx_session ctx with
    | None => (None, [])
    | Some s =>
        match st_DeleteByID (store m) (ID s) with
        | Some e => (Some e, [EvDeleteByID (ID s)])
        | None => (None, EvDeleteByID (ID s) :: snd (deleteCookie m now))
        end
    end.
Proof.
  unfold Revoke, FromContext.
  destruct (ctx_session ctx) as [s |]; [| reflexivity].
  simpl. unfold DeleteByID, bind, emit, ret; simpl.
  destruct (st_DeleteByID (store m) (ID s)); reflexivity.
Qed.

(** C5 (as amended): [RevokeOther] makes one store call,
    [DeleteByUserKey] with the key and the single excluded ID of the
    session [FromContext] yields (the zero session's [""] when none is
    bound), and writes no cookie; on an in-memory store this removes every
    session of the key except those with that ID. *)
Theorem RevokeOther_spec (m : Manager) (ctx : Context) (key : string) :
  let excl := [ID (fst (FromContext ctx))] in
  RevokeOther m ctx key = (st_DeleteByUserKey (store m) key excl, [EvDeleteByUserKey key excl])
  /\ ID (fst (FromContext ctx)) = match ctx_session ctx with Some s => ID s | None => "" end
  /\ filter is_cookie_write (snd (RevokeOther m ctx key)) = []
  /\ (forall db s, In s (mem_DeleteByUserKey db key excl)
        <-> In s db /\ (UserKey s <> key \/ ID s = ID (fst (FromContext ctx)))).
Proof.
  intro excl.
  assert (Hrun : RevokeOther m ctx key
                 = (st_DeleteByUserKey (store m) key excl, [EvDeleteByUserKey key excl])).
  { unfold RevokeOther, excl. destruct (FromContext ctx) as [s ok]. reflexivity. }
  split; [exact Hrun |].
  split; [unfold FromContext; destruct (ctx_session ctx); reflexivity |].
  split; [rewrite Hrun; reflexivity |].
  intros db s. rewrite mem_DeleteByUserKey_In. unfold excl; simpl.
  split; intros [Hin H]; split; auto; intuition.
Qed.

(** C5 refuted: with no bound session the exclusion list is [[""]], not
    empty, and a session of the key whose ID is [""] survives. *)
Lemma RevokeOther_unbound_keeps_empty_id :
  snd (RevokeOther (mk_manager alice_store) background "alice")
    <> [EvDeleteByUserKey "alice" []]
  /\ In blank_session
       (mem_DeleteByUserKey [blank_session; alice_session] "alice"
          (match snd (RevokeOther (mk_manager alice_store) background "alice") with
           | [EvDeleteByUserKey _ excl] => excl
           | _ => []
           end)).
Proof.
  split.
  - vm_compute. discriminate.
  - vm_compute. left. reflexivity.
Qed.

(** C6 (as amended): [RevokeAll] calls [DeleteByUserKey] with no exclusion;
    when it succeeds the cookie is deleted whatever the context holds, when
    it fails the error is returned and no cookie is written. *)
Theorem RevokeAll_spec (m : Manager) (now : Time) (ctx : Context) (key : string) :
  RevokeAll m now ctx key =
    match st_DeleteByUserKey (store m) key [] with
    | Some e => (Some e, [EvDeleteByUserKey key []])
    | None => (None, EvDeleteByUserKey key [] :: snd (deleteCookie m now))
    end
  /\ (forall ctx', RevokeAll m now ctx' key = RevokeAll m now ctx key).
Proof.
  unfold RevokeAll, DeleteByUserKey, bind, emit, ret; simpl.
  split; [| reflexivity].
  destruct (st_DeleteByUserKey (store m) key []); reflexivity.
Qed.

(** C6 refuted: when the store's deletion fails, [RevokeAll] writes no
    cookie. *)
Lemma RevokeAll_store_error_keeps_cookie :
  RevokeAll (mk_manager down_store) now2026 alice_ctx "alice"
    = (Some (StoreErr "down"), [EvDeleteByUserKey "alice" []])
  /\ filter is_cookie_write (snd (RevokeAll (mk_manager down_store) now2026 alice_ctx "alice")) = [].
Proof. split; reflexivity. Qed.

(** C7: for a store that keeps the [Store] contract (a key lookup with no
    error never answers an empty non-nil slice), a lookup that yields an
    empty result and no error makes [FetchAll] return the no-results signal:
    nil sessions and a nil error, never an empty container. *)
Theorem FetchAll_empty_no_results (m : Manager) (ctx : Context) (key : string)
  (ss : option (list Session))
  (Hcontract : forall l, st_FetchByUserKey (store m) key = (Some l, None) -> l <> [])
  (Hempty : ss = None \/ ss = Some [])
  (Hst : st_FetchByUserKey (store m) key = (ss, None)) :
  FetchAll m ctx key = ((None, None), [EvFetchByUserKey key]).
Proof.
  destruct Hempty as [-> | ->].
  - unfold FetchAll, FetchByUserKey, bind, emit, ret; simpl. rewrite Hst. reflexivity.
  - exfalso. exact (Hcontract [] Hst eq_refl).
Qed.

Lemma FetchAll_empty_no_results_witness :
  (forall l, st_FetchByUserKey alice_store "bob" = (Some l, None) -> l <> [])
  /\ (@None (list Session) = None \/ @None (list Session) = Some [])
  /\ st_FetchByUserKey alice_store "bob" = (None, None)
  /\ FetchAll (mk_manager alice_store) alice_ctx "bob" = ((None, None), [EvFetchByUserKey "bob"]).
Proof.
  assert (Hc : forall l, st_FetchByUserKey alice_store "bob" = (Some l, None) -> l <> []).
  { intros l H. discriminate H. }
  split; [exact Hc | split; [left; reflexivity | split; [reflexivity |]]].
  exact (FetchAll_empty_no_results (mk_manager alice_store) alice_ctx "bob" None Hc
           (or_introl eq_refl) eq_refl).
Defined.

Lemma mark_current_nth (id : string) (l : list Session) (i : nat) (s : Session) :
  nth_error l i = Some s ->
  nth_error (mark_current id l) i
  = Some (if String.eqb (ID s) id && negb (existsb (String.eqb id) (map ID (firstn i l)))
          then set_current s true else s).
Proof.
  revert i. induction l as [| a l IH]; intros [| i] Hnth; simpl in *; try discriminate.
  - injection Hnth as <-. rewrite andb_true_r.
    destruct (String.eqb (ID a) id); reflexivity.
  - destruct (String.eqb (ID a) id) eqn:Ha.
    + simpl. rewrite (String.eqb_sym id (ID a)), Ha. simpl.
      rewrite andb_false_r. exact Hnth.
    + simpl. rewrite (String.eqb_sym id (ID a)), Ha. simpl. apply IH. exact Hnth.
Qed.

Lemma mark_current_length (id : string) (l : list Session) :
  length (mark_current id l) = length l.
Proof.
  induction l as [| a l IH]; simpl; [reflexivity |].
  destruct (String.eqb (ID a) id); simpl; congruence.
Qed.

Lemma NoDup_ID_firstn (l : list Session) (i : nat) (s : Session) :
  NoDup (map ID l) -> nth_error l i = Some s ->
  existsb (String.eqb (ID s)) (map ID (firstn i l)) = false.
Proof.
  revert i. induction l as [| a l IH]; intros [| i] Hnd Hnth; simpl in *;
    try discriminate; try reflexivity.
  inversion Hnd as [| x y Hnotin Hnd']; subst.
  rewrite (IH i Hnd' Hnth), orb_false_r.
  apply String.eqb_neq. intros Heq.
  apply Hnotin. rewrite <- Heq. apply in_map. eapply nth_error_In. exact Hnth.
Qed.

(** C8 (as amended): on a store answer [l] with no error, [FetchAll] makes
    no call besides the lookup and returns [l] with the first entry whose ID
    is the bound session's marked [Current]; every other entry keeps the
    flag the store gave it.  When the store gives every entry
    [Current = false] and distinct IDs, an entry is [Current] exactly when
    a session is bound and the entry has its ID. *)
Theorem FetchAll_marks_first_match (m : Manager) (ctx : Context) (key : string)
  (l : list Session)
  (Hst : st_FetchByUserKey (store m) key = (Some l, None)) :
  exists l',
    FetchAll m ctx key = ((Some l', None), [EvFetchByUserKey key])
    /\ length l' = length l
    /\ (forall i s, nth_error l i = Some s ->
          nth_error l' i = Some (if first_match ctx l i s then set_current s true else s))
    /\ (Forall (fun s => Current s = false) l -> NoDup (map ID l) ->
        forall i s', nth_error l' i = Some s' ->
          (Current s' = true <-> exists cs, ctx_session ctx = Some cs /\ ID s' = ID cs)).
Proof.
  set (l' := match ctx_session ctx with Some cs => mark_current (ID cs) l | None => l end).
  assert (Hnth : forall i s, nth_error l i = Some s ->
            nth_error l' i = Some (if first_match ctx l i s then set_current s true else s)).
  { intros i s H. unfold l', first_match.
    destruct (ctx_session ctx) as [cs |]; [apply mark_current_nth; exact H | exact H]. }
  exists l'. split; [| split; [| split]].
  - unfold FetchAll, FetchByUserKey, bind, emit, ret; simpl. rewrite Hst.
    unfold FromContext, l'. destruct (ctx_session ctx); reflexivity.
  - unfold l'. destruct (ctx_session ctx); [apply mark_current_length | reflexivity].
  - exact Hnth.
  - intros Hfalse Hnd i s' Hs'.
    assert (Hlen : length l' = length l).
    { unfold l'. destruct (ctx_session ctx); [apply mark_current_length | reflexivity]. }
    destruct (nth_error l i) as [s |] eqn:Hs.
    2:{ apply nth_error_None in Hs. rewrite <- Hlen in Hs.
        apply nth_error_None in Hs. congruence. }
    rewrite (Hnth i s Hs) in Hs'. injection Hs' as <-.
    assert (Hcur : Current s = false).
    { rewrite Forall_forall in Hfalse. apply Hfalse. eapply nth_error_In. exact Hs. }
    pose proof (NoDup_ID_firstn l i s Hnd Hs) as Hfirst.
    unfold first_match.
    destruct (ctx_session ctx) as [cs |].
    + destruct (String.eqb_spec (ID s) (ID cs)) as [Hid | Hid]; simpl.
      * rewrite <- Hid, Hfirst. simpl. split; [intros _; exists cs; auto | reflexivity].
      * rewrite Hcur. split; [discriminate |].
        intros [cs' [Hcs' Hid']]. injection Hcs' as <-. contradiction.
    + rewrite Hcur. split; [discriminate |]. intros [cs' [Hcs' _]]. discriminate.
Qed.

Lemma FetchAll_marks_first_match_witness :
  st_FetchByUserKey alice_store "alice" = (Some [alice_session], None)
  /\ exists l',
    FetchAll (mk_manager alice_store) alice_ctx "alice"
      = ((Some l', None), [EvFetchByUserKey "alice"])
    /\ length l' = length [alice_session]
    /\ (forall i s, nth_error [alice_session] i = Some s ->
          nth_error l' i
          = Some (if first_match alice_ctx [alice_session] i s then set_current s true else s))
    /\ (Forall (fun s => Current s = false) [alice_session] -> NoDup (map ID [alice_session]) ->
        forall i s', nth_error l' i = Some s' ->
          (Current s' = true <-> exists cs, ctx_session alice_ctx = Some cs /\ ID s' = ID cs)).
Proof.
  split; [reflexivity |].
  apply (FetchAll_marks_first_match (mk_manager alice_store) alice_ctx "alice" [alice_session]).
  reflexivity.
Defined.

(** C8 refuted: with no bound session, a [Current] flag set in the store's
    answer comes back set. *)
Lemma FetchAll_keeps_store_flag :
  fst (FetchAll (mk_manager flagged_store) background "alice")
    = (Some [set_current alice_session true], None)
  /\ Current (set_current alice_session true) = true.
Proof. split; reflexivity. Qed.

(** C9: every cookie [Revoke] and [RevokeAll] write carries the configured
    name, an empty value, and an expiry 30 days before now, so at least 24
    hours in the past, whatever [expiresIn] is. *)
Theorem revoke_cookie_is_expired (m : Manager) (now : Time) (ctx : Context) (key : string)
  (c : Cookie)
  (Hwritten : In (EvSetCookie c) (snd (Revoke m now ctx))
              \/ In (EvSetCookie c) (snd (RevokeAll m now ctx key))) :
  c_Name c = cookie_name m
  /\ c_Value c = ""
  /\ c_Expires c = now - 30 * 24 * Hour
  /\ c_Expires c <= now - 24 * Hour.
Proof.
  assert (Hdel : forall c', In (EvSetCookie c') (snd (deleteCookie m now)) ->
            c_Name c' = cookie_name m /\ c_Value c' = ""
            /\ c_Expires c' = now - 30 * 24 * Hour /\ c_Expires c' <= now - 24 * Hour).
  { intros c' [H | []]. injection H as <-. simpl.
    unfold Hour. repeat split; lia. }
  destruct Hwritten as [H | H].
  - revert H. unfold Revoke, FromContext.
    destruct (ctx_session ctx) as [s |]; simpl; [| intros []].
    unfold DeleteByID, bind, emit, ret; simpl.
    destruct (st_DeleteByID (store m) (ID s)); simpl.
    + intros [H | []]. discriminate.
    + intros [H | H]; [discriminate |]. apply Hdel.
      unfold deleteCookie, setCookie, emit in *. simpl in *. rewrite ?app_nil_r in H. exact H.
  - revert H. unfold RevokeAll, DeleteByUserKey, bind, emit, ret; simpl.
    destruct (st_DeleteByUserKey (store m) key []); simpl.
    + intros [H | []]. discriminate.
    + intros [H | H]; [discriminate |]. apply Hdel.
      unfold deleteCookie, setCookie, emit in *. simpl in *. rewrite ?app_nil_r in H. exact H.
Qed.

Lemma revoke_cookie_is_expired_witness :
  (In (EvSetCookie deletion_cookie_2026) (snd (Revoke (mk_manager alice_store) now2026 alice_ctx))
   \/ In (EvSetCookie deletion_cookie_2026)
        (snd (RevokeAll (mk_manager alice_store) now2026 alice_ctx "alice")))
  /\ c_Name deletion_cookie_2026 = "sessionup"
  /\ c_Value deletion_cookie_2026 = ""
  /\ c_Expires deletion_cookie_2026 = now2026 - 30 * 24 * Hour
  /\ c_Expires deletion_cookie_2026 <= now2026 - 24 * Hour.
Proof.
  assert (Hin : In (EvSetCookie deletion_cookie_2026)
                  (snd (Revoke (mk_manager alice_store) now2026 alice_ctx))
                \/ In (EvSetCookie deletion_cookie_2026)
                  (snd (RevokeAll (mk_manager alice_store) now2026 alice_ctx "alice"))).
  { left. simpl. right. left. reflexivity. }
  split; [exact Hin |].
  exact (revoke_cookie_is_expired (mk_manager alice_store) now2026 alice_ctx "alice"
           deletion_cookie_2026 Hin).
Defined.

(** C10: with no session bound, [RevokeOther] calls [DeleteByUserKey] with
    the one-element exclusion list [[""]], the zero session's ID. *)
Theorem RevokeOther_unbound_excludes_zero_id (m : Manager) (ctx : Context) (key : string)
  (Hunbound : ctx_session ctx = None) :
  RevokeOther m ctx key = (st_DeleteByUserKey (store m) key [""], [EvDeleteByUserKey key [""]])
  /\ snd (RevokeOther m ctx key) <> [EvDeleteByUserKey key []].
Proof.
  unfold RevokeOther, FromContext. rewrite Hunbound. simpl.
  split; [reflexivity | intros H; injection H; discriminate].
Qed.

Lemma RevokeOther_unbound_excludes_zero_id_witness :
  ctx_session background = None
  /\ RevokeOther (mk_manager alice_store) background "alice"
     = (st_DeleteByUserKey alice_store "alice" [""], [EvDeleteByUserKey "alice" [""]])
  /\ snd (RevokeOther (mk_manager alice_store) background "alice")
     <> [EvDeleteByUserKey "alice" []].
Proof.
  split; [reflexivity |].
  apply (RevokeOther_unbound_excludes_zero_id (mk_manager alice_store) background "alice").
  reflexivity.
Defined.

(** ** Configuration *)

Lemma current_setting_other (o o' : setter) (m : Manager) :
  same_field o o' = false ->
  current_setting o (apply_setter o' m) = current_setting o m.
Proof. destruct m; destruct o, o'; simpl; solve [reflexivity | discriminate]. Qed.

Lemma current_setting_self (o : setter) (m : Manager) :
  current_setting o (apply_setter o m) = o.
Proof. destruct m; destruct o; reflexivity. Qed.

Lemma current_setting_untouched (o : setter) (opts : list setter) (m : Manager) :
  forallb (fun o' => negb (same_field o o')) opts = true ->
  current_setting o (apply_all opts m) = current_setting o m.
Proof.
  unfold apply_all. revert m.
  induction opts as [| o' opts IH]; intros m H; simpl in *; [reflexivity |].
  apply andb_true_iff in H as [H1 H2]. apply negb_true_iff in H1.
  rewrite IH by exact H2. apply current_setting_other. exact H1.
Qed.

Lemma apply_all_store (opts : list setter) (m : Manager) :
  store (apply_all opts m) = store m.
Proof.
  unfold apply_all. revert m.
  induction opts as [| o opts IH]; intro m; simpl; [reflexivity |].
  rewrite IH. destruct m, o; reflexivity.
Qed.

Lemma apply_all_app (o1 o2 : list setter) (m : Manager) :
  apply_all (o1 ++ o2) m = apply_all o2 (apply_all o1 m).
Proof. unfold apply_all. apply fold_left_app. Qed.

(** [NewManager] without options has the documented defaults (cookie
    "sessionup" on path "/", no domain, Secure, HttpOnly, SameSite strict,
    no expiry, IP and user agent captured, [DefaultGenID]); a field no option
    writes keeps its default whatever the other options are. *)
Theorem NewManager_defaults (DefaultGenID : unit -> string) (st : Store)
  (opts : list setter) (o : setter)
  (Huntouched : forallb (fun o' => negb (same_field o o')) opts = true) :
  NewManager DefaultGenID st [] =
    {| store := st; cookie_name := "sessionup"; cookie_domain := ""; cookie_path := "/";
       cookie_secure := true; cookie_httpOnly := true; cookie_sameSite := SameSiteStrictMode;
       expiresIn := 0; withIP := true; withAgent := true; genID := DefaultGenID |}
  /\ current_setting o (NewManager DefaultGenID st opts)
     = current_setting o (NewManager DefaultGenID st []).
Proof.
  split; [reflexivity |].
  unfold NewManager. rewrite current_setting_untouched by exact Huntouched. reflexivity.
Qed.

Lemma NewManager_defaults_witness :
  forallb (fun o' => negb (same_field (ExpiresIn 0) o'))
          [CookieName "sid"; Secure false] = true
  /\ NewManager (fun _ => "abc") alice_store [] =
    {| store := alice_store; cookie_name := "sessionup"; cookie_domain := ""; cookie_path := "/";
       cookie_secure := true; cookie_httpOnly := true; cookie_sameSite := SameSiteStrictMode;
       expiresIn := 0; withIP := true; withAgent := true; genID := fun _ => "abc" |}
  /\ current_setting (ExpiresIn 0)
       (NewManager (fun _ => "abc") alice_store [CookieName "sid"; Secure false])
     = current_setting (ExpiresIn 0) (NewManager (fun _ => "abc") alice_store []).
Proof.
  split; [reflexivity |].
  apply (NewManager_defaults (fun _ => "abc") alice_store [CookieName "sid"; Secure false]).
  reflexivity.
Defined.

(** Options apply in order: the last option that writes a field decides
    it, in [NewManager] as in [Clone]. *)
Theorem last_option_wins (DefaultGenID : unit -> string) (st : Store) (m : Manager)
  (o1 o2 : list setter) (o : setter)
  (Hlast : forallb (fun o' => negb (same_field o o')) o2 = true) :
  current_setting o (NewManager DefaultGenID st (o1 ++ o :: o2)) = o
  /\ current_setting o (Clone m (o1 ++ o :: o2)) = o.
Proof.
  assert (H : forall m0, current_setting o (apply_all (o1 ++ o :: o2) m0) = o).
  { intro m0. rewrite apply_all_app.
    change (o :: o2) with (([o] ++ o2)%list). rewrite apply_all_app.
    rewrite current_setting_untouched by exact Hlast.
    apply current_setting_self. }
  split; apply H.
Qed.

Lemma last_option_wins_witness :
  forallb (fun o' => negb (same_field (CookieName "sid") o')) [Secure false] = true
  /\ current_setting (CookieName "sid")
       (NewManager (fun _ => "abc") alice_store
          ([CookieName "first"] ++ CookieName "sid" :: [Secure false])) = CookieName "sid"
  /\ current_setting (CookieName "sid")
       (Clone (mk_manager alice_store)
          ([CookieName "first"] ++ CookieName "sid" :: [Secure false])) = CookieName "sid".
Proof.
  split; [reflexivity |].
  apply (last_option_wins (fun _ => "abc") alice_store (mk_manager alice_store)
           [CookieName "first"] [Secure false] (CookieName "sid")).
  reflexivity.
Defined.

(** No option replaces the store, and cloning a manager built by
    [NewManager] is the same as building it with both option lists. *)
Theorem Clone_NewManager (DefaultGenID : unit -> string) (st : Store) (o1 o2 : list setter)
  (m : Manager) :
  store (NewManager DefaultGenID st o1) = st
  /\ store (Clone m o2) = store m
  /\ Clone m [] = m
  /\ Clone (NewManager DefaultGenID st o1) o2 = NewManager DefaultGenID st (o1 ++ o2).
Proof.
  split; [unfold NewManager; rewrite apply_all_store; reflexivity |].
  split; [apply apply_all_store |].
  split; [reflexivity |].
  unfold Clone, NewManager. symmetry. apply apply_all_app.
Qed.

(** ** Session creation and authentication *)

(** [Init]'s result and trace by the branch it takes. *)
Lemma Init_trace (m : Manager) (now : Time) (r : Request) (key : string) :
  let s := newSession m now r key in
  Init m now r key =
    if After (ExpiresAt s) 0 then
      match st_Create (store m) s with
      | Some e => (Some e, [EvCreate s])
      | None => (None, EvCreate s :: snd (setCookie m (ExpiresAt s) (ID s)))
      end
    else (None, snd (setCookie m (ExpiresAt s) (ID s))).
Proof.
  intro s. unfold Init. fold s.
  destruct (After (ExpiresAt s) 0); [| reflexivity].
  unfold Create, bind, emit, ret; simpl.
  destruct (st_Create (store m) s); reflexivity.
Qed.

(** Without a configured duration, [Init] makes no store call and writes
    one session cookie (zero expiry) carrying a fresh ID; it cannot fail. *)
Theorem Init_without_expiry (m : Manager) (now : Time) (r : Request) (key : string)
  (Hnoexp : expiresIn m = 0) :
  Init m now r key =
    (None, [EvSetCookie {| c_Name := cookie_name m; c_Value := genID m tt;
                           c_Path := cookie_path m; c_Domain := cookie_domain m;
                           c_Expires := 0; c_Secure := cookie_secure m;
                           c_HttpOnly := cookie_httpOnly m;
                           c_SameSite := cookie_sameSite m |}]).
Proof.
  rewrite Init_trace. unfold newSession. simpl. rewrite Hnoexp. reflexivity.
Qed.

Lemma Init_without_expiry_witness :
  expiresIn (Clone (mk_manager down_store) [ExpiresIn 0]) = 0
  /\ Init (Clone (mk_manager down_store) [ExpiresIn 0]) now2026 alice_request "alice" =
    (None, [EvSetCookie {| c_Name := "sessionup"; c_Value := "abc"; c_Path := "/";
                           c_Domain := ""; c_Expires := 0; c_Secure := true;
                           c_HttpOnly := true; c_SameSite := SameSiteStrictMode |}]).
Proof.
  split; [reflexivity |].
  apply (Init_without_expiry (Clone (mk_manager down_store) [ExpiresIn 0])).
  reflexivity.
Defined.

(** With a configured duration and a store that accepts the session,
    [Init] first stores the new session and then writes one cookie carrying
    its ID and expiring at [now + expiresIn]. *)
Theorem Init_with_expiry (m : Manager) (now : Time) (r : Request) (key : string)
  (Hnow : 2 ^ 63 < now)
  (Hdur : - 2 ^ 63 <= expiresIn m < 2 ^ 63)
  (Hexp : expiresIn m <> 0)
  (Hcreate : st_Create (store m) (newSession m now r key) = None) :
  Init m now r key =
    (None, [EvCreate (newSession m now r key);
            EvSetCookie {| c_Name := cookie_name m; c_Value := genID m tt;
                           c_Path := cookie_path m; c_Domain := cookie_domain m;
                           c_Expires := now + expiresIn m; c_Secure := cookie_secure m;
                           c_HttpOnly := cookie_httpOnly m;
                           c_SameSite := cookie_sameSite m |}]).
Proof.
  rewrite Init_trace. rewrite Hcreate.
  assert (Hz : (expiresIn m =? 0) = false) by (apply Z.eqb_neq; exact Hexp).
  assert (Ha : After (ExpiresAt (newSession m now r key)) 0 = true).
  { unfold After, newSession; simpl. rewrite Hz. apply Z.ltb_lt. lia. }
  rewrite Ha. unfold newSession; simpl. rewrite Hz. reflexivity.
Qed.

Lemma Init_with_expiry_witness :
  2 ^ 63 < now2026 /\ - 2 ^ 63 <= expiresIn (mk_manager alice_store) < 2 ^ 63
  /\ expiresIn (mk_manager alice_store) <> 0
  /\ st_Create alice_store (newSession (mk_manager alice_store) now2026 alice_request "alice") = None
  /\ Init (mk_manager alice_store) now2026 alice_request "alice" =
    (None, [EvCreate (newSession (mk_manager alice_store) now2026 alice_request "alice");
            EvSetCookie {| c_Name := "sessionup"; c_Value := "abc"; c_Path := "/";
                           c_Domain := ""; c_Expires := now2026 + Hour; c_Secure := true;
                           c_HttpOnly := true; c_SameSite := SameSiteStrictMode |}]).
Proof.
  assert (Hnow : 2 ^ 63 < now2026) by (apply Z.ltb_lt; reflexivity).
  assert (Hdur : - 2 ^ 63 <= expiresIn (mk_manager alice_store) < 2 ^ 63)
    by (split; [apply Z.leb_le | apply Z.ltb_lt]; reflexivity).
  assert (Hexp : expiresIn (mk_manager alice_store) <> 0) by discriminate.
  split; [exact Hnow | split; [exact Hdur | split; [exact Hexp | split; [reflexivity |]]]].
  exact (Init_with_expiry (mk_manager alice_store) now2026 alice_request "alice"
           Hnow Hdur Hexp eq_refl).
Defined.

(** A store failure while resolving the cookie goes to the rejection
    handler with the store's own error, whatever else the store answered. *)
Theorem Auth_rejects_store_error (m : Manager) (r : Request) (c : string)
  (s : Session) (ok : bool) (e : error)
  (Hcookie : find_cookie (cookie_name m) (r_cookies r) = Some c)
  (Hfail : st_FetchByID (store m) c = (s, ok, Some e)) :
  Auth m r = (tt, [EvFetchByID c; EvReject e]).
Proof.
  unfold Auth, Request_Cookie. rewrite Hcookie.
  unfold FetchByID, bind, emit, ret; simpl. rewrite Hfail. reflexivity.
Qed.

Lemma Auth_rejects_store_error_witness :
  find_cookie "sessionup" (r_cookies alice_request) = Some "abc"
  /\ st_FetchByID down_store "abc" = (zero_session, false, Some (StoreErr "down"))
  /\ Auth (mk_manager down_store) alice_request
     = (tt, [EvFetchByID "abc"; EvReject (StoreErr "down")]).
Proof.
  split; [reflexivity | split; [reflexivity |]].
  apply (Auth_rejects_store_error (mk_manager down_store) alice_request "abc"
           zero_session false); reflexivity.
Defined.

(** A cookie the store does not know is rejected as unauthorized. *)
Theorem Auth_rejects_unknown_id (m : Manager) (r : Request) (c : string) (s : Session)
  (Hcookie : find_cookie (cookie_name m) (r_cookies r) = Some c)
  (Hunknown : st_FetchByID (store m) c = (s, false, None)) :
  Auth m r = (tt, [EvFetchByID c; EvReject ErrUnauthorized]).
Proof.
  unfold Auth, Request_Cookie. rewrite Hcookie.
  unfold FetchByID, bind, emit, ret; simpl. rewrite Hunknown. reflexivity.
Qed.

Lemma Auth_rejects_unknown_id_witness :
  find_cookie "sessionup" (r_cookies stale_request) = Some "xyz"
  /\ st_FetchByID alice_store "xyz" = (zero_session, false, None)
  /\ Auth (mk_manager alice_store) stale_request
     = (tt, [EvFetchByID "xyz"; EvReject ErrUnauthorized]).
Proof.
  split; [reflexivity | split; [reflexivity |]].
  apply (Auth_rejects_unknown_id (mk_manager alice_store) stale_request "xyz" zero_session);
    reflexivity.
Defined.

(** [Auth] ends in exactly one handler call, the next handler or the
    rejection handler, and its only store call is one [FetchByID] of the
    cookie's value, made only when the cookie is present. *)
Theorem Auth_one_handler (m : Manager) (r : Request) :
  (length (filter is_next (snd (Auth m r))) + length (filter is_reject (snd (Auth m r))))%nat = 1%nat
  /\ filter is_store_call (snd (Auth m r)) =
       match find_cookie (cookie_name m) (r_cookies r) with
       | Some c => [EvFetchByID c]
       | None => []
       end.
Proof.
  unfold Auth, Request_Cookie.
  destruct (find_cookie (cookie_name m) (r_cookies r)) as [c |]; [| split; reflexivity].
  unfold FetchByID, bind, emit, ret; simpl.
  destruct (st_FetchByID (store m) c) as [[s ok] [e |]]; [| destruct ok]; split; reflexivity.
Qed.

Lemma mem_FetchByID_head (s : Session) (db : list Session) :
  mem_FetchByID (s :: db) (ID s) = (s, true, None).
Proof. simpl. rewrite String.eqb_refl. reflexivity. Qed.

Lemma mem_FetchByID_deleted (db : list Session) (id : string) :
  mem_FetchByID (filter (fun s => negb (String.eqb (ID s) id)) db) id
  = (zero_session, false, None).
Proof.
  induction db as [| x db IH]; simpl; [reflexivity |].
  destruct (String.eqb (ID x) id) eqn:Hx; simpl; [exact IH |].
  rewrite Hx. exact IH.
Qed.

Lemma mem_FetchByID_kept (db : list Session) (key : string) (s : Session) :
  mem_FetchByID db (ID s) = (s, true, None) ->
  mem_FetchByID (mem_DeleteByUserKey db key [ID s]) (ID s) = (s, true, None).
Proof.
  unfold mem_DeleteByUserKey.
  induction db as [| x db IH]; simpl; [discriminate |].
  destruct (String.eqb (ID x) (ID s)) eqn:Hx.
  - intro H. injection H as <-. rewrite andb_false_r. simpl.
    rewrite String.eqb_refl. reflexivity.
  - intro H. specialize (IH H).
    destruct (negb _); simpl; [rewrite Hx |]; exact IH.
Qed.

(** Round trip: with a configured duration, on an in-memory store, the
    cookie [Init] writes, sent back, authenticates: [Auth] forwards the
    request with exactly the session [Init] created. *)
Theorem Init_then_Auth (m : Manager) (db : list Session) (now : Time) (r : Request)
  (key : string)
  (Hnow : 2 ^ 63 < now)
  (Hdur : - 2 ^ 63 <= expiresIn m < 2 ^ 63)
  (Hexp : expiresIn m <> 0) :
  let m0 := with_store m (mem_store db) in
  let s := newSession m0 now r key in
  fst (Init m0 now r key) = None
  /\ exists c,
       In (EvSetCookie c) (snd (Init m0 now r key))
       /\ Auth (with_store m (mem_store (persist db (snd (Init m0 now r key)))))
               (cookie_request c)
          = (tt, [EvFetchByID (ID s);
                  EvNext (WithContext (cookie_request c) (newContext background s))]).
Proof.
  intros m0 s.
  assert (Hnow' : 2 ^ 63 < now) by exact Hnow.
  rewrite Init_trace. fold s.
  assert (Ha : After (ExpiresAt s) 0 = true).
  { unfold After, s, newSession; simpl.
    assert (Hz : (expiresIn m =? 0) = false) by (apply Z.eqb_neq; exact Hexp).
    rewrite Hz. apply Z.ltb_lt. lia. }
  rewrite Ha. simpl. split; [reflexivity |].
  eexists. split; [right; left; reflexivity |].
  unfold persist; simpl.
  unfold Auth, Request_Cookie, cookie_request; simpl.
  rewrite String.eqb_refl.
  unfold FetchByID, bind, emit, ret; simpl.
  rewrite String.eqb_refl. reflexivity.
Qed.

Lemma Init_then_Auth_witness :
  2 ^ 63 < now2026 /\ - 2 ^ 63 <= expiresIn (mk_manager alice_store) < 2 ^ 63
  /\ expiresIn (mk_manager alice_store) <> 0
  /\ (let m0 := with_store (mk_manager alice_store) (mem_store []) in
      let s := newSession m0 now2026 alice_request "alice" in
      fst (Init m0 now2026 alice_request "alice") = None
      /\ exists c,
           In (EvSetCookie c) (snd (Init m0 now2026 alice_request "alice"))
           /\ Auth (with_store (mk_manager alice_store)
                      (mem_store (persist [] (snd (Init m0 now2026 alice_request "alice")))))
                   (cookie_request c)
              = (tt, [EvFetchByID (ID s);
                      EvNext (WithContext (cookie_request c) (newContext background s))])).
Proof.
  assert (Hnow : 2 ^ 63 < now2026) by (apply Z.ltb_lt; reflexivity).
  assert (Hdur : - 2 ^ 63 <= expiresIn (mk_manager alice_store) < 2 ^ 63)
    by (split; [apply Z.leb_le | apply Z.ltb_lt]; reflexivity).
  assert (Hexp : expiresIn (mk_manager alice_store) <> 0) by discriminate.
  split; [exact Hnow | split; [exact Hdur | split; [exact Hexp |]]].
  exact (Init_then_Auth (mk_manager alice_store) [] now2026 alice_request "alice"
           Hnow Hdur Hexp).
Defined.

(** Round trip without a configured duration: [Init] stores nothing, so
    its cookie, sent back, is rejected as unauthorized unless the store
    already held a session with the new ID. *)
Theorem Init_without_expiry_then_Auth (m : Manager) (db : list Session) (now : Time)
  (r : Request) (key : string)
  (Hnoexp : expiresIn m = 0)
  (Hfresh : mem_FetchByID db (genID m tt) = (zero_session, false, None)) :
  let tr := snd (Init m now r key) in
  exists c,
    tr = [EvSetCookie c]
    /\ persist db tr = db
    /\ Auth (with_store m (mem_store (persist db tr))) (cookie_request c)
       = (tt, [EvFetchByID (genID m tt); EvReject ErrUnauthorized]).
Proof.
  intro tr. unfold tr. rewrite Init_trace.
  unfold newSession; simpl. rewrite Hnoexp. simpl.
  eexists. split; [reflexivity |]. split; [reflexivity |].
  unfold persist; simpl.
  unfold Auth, Request_Cookie, cookie_request; simpl.
  rewrite String.eqb_refl.
  unfold FetchByID, bind, emit, ret; simpl.
  rewrite Hfresh. reflexivity.
Qed.

Lemma Init_without_expiry_then_Auth_witness :
  expiresIn (Clone (mk_manager alice_store) [ExpiresIn 0]) = 0
  /\ mem_FetchByID [] (genID (Clone (mk_manager alice_store) [ExpiresIn 0]) tt)
     = (zero_session, false, None)
  /\ (let m := Clone (mk_manager alice_store) [ExpiresIn 0] in
      let tr := snd (Init m now2026 alice_request "alice") in
      exists c,
        tr = [EvSetCookie c]
        /\ persist [] tr = []
        /\ Auth (with_store m (mem_store (persist [] tr))) (cookie_request c)
           = (tt, [EvFetchByID (genID m tt); EvReject ErrUnauthorized])).
Proof.
  split; [reflexivity | split; [reflexivity |]].
  apply (Init_without_expiry_then_Auth (Clone (mk_manager alice_store) [ExpiresIn 0]) []);
    reflexivity.
Defined.

(** ** Revocation on an in-memory store *)

Lemma filter_no_key (db : list Session) (key : string) :
  (forall x, In x db -> UserKey x <> key) ->
  filter (fun s => String.eqb (UserKey s) key) db = [].
Proof.
  induction db as [| x db IH]; intro H; simpl; [reflexivity |].
  destruct (String.eqb_spec (UserKey x) key) as [Heq | _].
  - exfalso. apply (H x); [left; reflexivity | exact Heq].
  - apply IH. intros y Hy. apply H. right. exact Hy.
Qed.

(** After [Revoke] succeeds on an in-memory store, the revoked session's
    cookie no longer authenticates: [Auth] rejects it as unauthorized. *)
Theorem Revoke_then_Auth (m : Manager) (db : list Session) (now : Time) (ctx : Context)
  (s : Session)
  (Hbound : ctx_session ctx = Some s) :
  let m0 := with_store m (mem_store db) in
  fst (Revoke m0 now ctx) = None
  /\ Auth (with_store m (mem_store (persist db (snd (Revoke m0 now ctx)))))
          (session_request (cookie_name m) (ID s))
     = (tt, [EvFetchByID (ID s); EvReject ErrUnauthorized]).
Proof.
  intro m0. unfold Revoke, FromContext. rewrite Hbound. simpl.
  split; [reflexivity |].
  unfold persist; simpl.
  unfold Auth, Request_Cookie, session_request; simpl.
  rewrite String.eqb_refl.
  unfold FetchByID, bind, emit, ret; simpl.
  rewrite mem_FetchByID_deleted. reflexivity.
Qed.

Lemma Revoke_then_Auth_witness :
  ctx_session alice_ctx = Some alice_session
  /\ (let m0 := with_store (mk_manager alice_store) (mem_store [alice_session]) in
      fst (Revoke m0 now2026 alice_ctx) = None
      /\ Auth (with_store (mk_manager alice_store)
                 (mem_store (persist [alice_session] (snd (Revoke m0 now2026 alice_ctx)))))
              (session_request "sessionup" (ID alice_session))
         = (tt, [EvFetchByID (ID alice_session); EvReject ErrUnauthorized])).
Proof.
  split; [reflexivity |].
  apply (Revoke_then_Auth (mk_manager alice_store) [alice_session] now2026 alice_ctx).
  reflexivity.
Defined.

(** After [RevokeOther] on an in-memory store, the only sessions of the key
    left are those with the current session's ID; and when the current
    session was the first stored session with its ID, its cookie still
    authenticates to that same session. *)
Theorem RevokeOther_keeps_current (m : Manager) (db : list Session) (ctx : Context)
  (key : string) (s : Session)
  (Hbound : ctx_session ctx = Some s) :
  let m0 := with_store m (mem_store db) in
  let db' := persist db (snd (RevokeOther m0 ctx key)) in
  fst (RevokeOther m0 ctx key) = None
  /\ (forall x, In x db' -> UserKey x = key -> ID x = ID s)
  /\ (mem_FetchByID db (ID s) = (s, true, None) ->
      Auth (with_store m (mem_store db')) (session_request (cookie_name m) (ID s))
      = (tt, [EvFetchByID (ID s);
              EvNext (WithContext (session_request (cookie_name m) (ID s))
                                  (newContext background s))])).
Proof.
  intros m0 db'.
  assert (Hdb : db' = mem_DeleteByUserKey db key [ID s]).
  { unfold db', RevokeOther, FromContext. rewrite Hbound. reflexivity. }
  split; [unfold RevokeOther, FromContext; rewrite Hbound; reflexivity |].
  split.
  - intros x Hx Hkey. rewrite Hdb, mem_DeleteByUserKey_In in Hx.
    destruct Hx as [_ [Hne | [Hid | []]]]; [contradiction | symmetry; exact Hid].
  - intro Hstored. rewrite Hdb. unfold Auth, Request_Cookie, session_request; simpl.
    rewrite String.eqb_refl.
    unfold FetchByID, bind, emit, ret; simpl.
    rewrite (mem_FetchByID_kept db key s Hstored). reflexivity.
Qed.

Lemma RevokeOther_keeps_current_witness :
  ctx_session alice_ctx = Some alice_session
  /\ (let m0 := with_store (mk_manager alice_store) (mem_store [blank_session; alice_session]) in
      let db' := persist [blank_session; alice_session]
                   (snd (RevokeOther m0 alice_ctx "alice")) in
      fst (RevokeOther m0 alice_ctx "alice") = None
      /\ (forall x, In x db' -> UserKey x = "alice" -> ID x = ID alice_session)
      /\ (mem_FetchByID [blank_session; alice_session] (ID alice_session)
          = (alice_session, true, None) ->
          Auth (with_store (mk_manager alice_store) (mem_store db'))
               (session_request "sessionup" (ID alice_session))
          = (tt, [EvFetchByID (ID alice_session);
                  EvNext (WithContext (session_request "sessionup" (ID alice_session))
                                      (newContext background alice_session))]))).
Proof.
  split; [reflexivity |].
  apply (RevokeOther_keeps_current (mk_manager alice_store) [blank_session; alice_session]
           alice_ctx "alice" alice_session); reflexivity.
Defined.

(** After [RevokeAll] on an in-memory store, exactly the sessions of other
    keys remain, and [FetchAll] for the key answers the no-results signal,
    whatever the context holds. *)
Theorem RevokeAll_then_FetchAll (m : Manager) (db : list Session) (now : Time)
  (ctx ctx' : Context) (key : string) :
  let m0 := with_store m (mem_store db) in
  let db' := persist db (snd (RevokeAll m0 now ctx key)) in
  fst (RevokeAll m0 now ctx key) = None
  /\ (forall x, In x db' <-> In x db /\ UserKey x <> key)
  /\ FetchAll (with_store m (mem_store db')) ctx' key = ((None, None), [EvFetchByUserKey key]).
Proof.
  intros m0 db'.
  assert (Hdb : db' = mem_DeleteByUserKey db key []) by reflexivity.
  assert (Hin : forall x, In x db' <-> In x db /\ UserKey x <> key).
  { intro x. rewrite Hdb, mem_DeleteByUserKey_In. simpl. intuition. }
  split; [reflexivity | split; [exact Hin |]].
  unfold FetchAll, FetchByUserKey, bind, emit, ret; simpl.
  unfold mem_FetchByUserKey. rewrite filter_no_key; [reflexivity |].
  intros x Hx. apply Hin in Hx. apply Hx.
Qed.

(** ** Enumeration *)

(** A store error in [FetchAll] is returned with nil sessions, whatever
    sessions the store answered alongside it. *)
Theorem FetchAll_store_error (m : Manager) (ctx : Context) (key : string)
  (ss : option (list Session)) (e : error)
  (Hfail : st_FetchByUserKey (store m) key = (ss, Some e)) :
  FetchAll m ctx key = ((None, Some e), [EvFetchByUserKey key]).
Proof.
  unfold FetchAll, FetchByUserKey, bind, emit, ret; simpl. rewrite Hfail. reflexivity.
Qed.

Lemma FetchAll_store_error_witness :
  st_FetchByUserKey partial_store "alice" = (Some [alice_session], Some (StoreErr "timeout"))
  /\ FetchAll (mk_manager partial_store) alice_ctx "alice"
     = ((None, Some (StoreErr "timeout")), [EvFetchByUserKey "alice"]).
Proof.
  split; [reflexivity |].
  apply (FetchAll_store_error (mk_manager partial_store) alice_ctx "alice" (Some [alice_session])).
  reflexivity.
Defined.

Lemma mark_current_clear (id : string) (l : list Session) :
  map (fun s => set_current s false) (mark_current id l)
  = map (fun s => set_current s false) l.
Proof.
  induction l as [| a l IH]; simpl; [reflexivity |].
  destruct (String.eqb (ID a) id); simpl; [reflexivity | rewrite IH; reflexivity].
Qed.

(** [FetchAll] returns the store's sessions in the store's order, with
    every field but [Current] as the store gave it. *)
Theorem FetchAll_preserves_sessions (m : Manager) (ctx : Context) (key : string)
  (l : list Session)
  (Hst : st_FetchByUserKey (store m) key = (Some l, None)) :
  exists l',
    fst (FetchAll m ctx key) = (Some l', None)
    /\ map (fun s => set_current s false) l' = map (fun s => set_current s false) l
    /\ map ID l' = map ID l.
Proof.
  unfold FetchAll, FetchByUserKey, bind, emit, ret; simpl. rewrite Hst.
  unfold FromContext. destruct (ctx_session ctx) as [cs |]; simpl.
  - eexists. split; [reflexivity |].
    split; [apply mark_current_clear |].
    rewrite <- (map_map (fun s => set_current s false) ID).
    rewrite mark_current_clear. rewrite map_map. reflexivity.
  - eexists. split; [reflexivity | split; reflexivity].
Qed.

Lemma FetchAll_preserves_sessions_witness :
  st_FetchByUserKey alice_store "alice" = (Some [alice_session], None)
  /\ exists l',
    fst (FetchAll (mk_manager alice_store) alice_ctx "alice") = (Some l', None)
    /\ map (fun s => set_current s false) l' = map (fun s => set_current s false) [alice_session]
    /\ map ID l' = map ID [alice_session].
Proof.
  split; [reflexivity |].
  apply (FetchAll_preserves_sessions (mk_manager alice_store) alice_ctx "alice"). reflexivity.
Defined.

(** ** Cookies and handlers *)

Lemma setCookie_configured (m : Manager) (exp : Time) (tok : string) (c : Cookie) :
  In (EvSetCookie c) (snd (setCookie m exp tok)) -> configured_cookie m c.
Proof.
  intros [H | []]. injection H as <-. repeat split.
Qed.

Lemma deleteCookie_only_cookie (m : Manager) (now : Time) (e : event) :
  In e (snd (deleteCookie m now)) -> exists c, e = EvSetCookie c /\ configured_cookie m c.
Proof.
  intros [H | []]. subst e. eexists. split; [reflexivity |]. repeat split.
Qed.

(** Every cookie [Init], [Revoke] and [RevokeAll] write has the configured
    name, path, domain, Secure, HttpOnly and SameSite attributes. *)
Theorem written_cookies_configured (m : Manager) (now : Time) (r : Request) (key : string)
  (ctx : Context) (c : Cookie)
  (Hwritten : In (EvSetCookie c) (snd (Init m now r key))
              \/ In (EvSetCookie c) (snd (Revoke m now ctx))
              \/ In (EvSetCookie c) (snd (RevokeAll m now ctx key))) :
  configured_cookie m c.
Proof.
  destruct Hwritten as [H | [H | H]].
  - rewrite Init_trace in H.
    destruct (After _ 0); [destruct (st_Create _ _) |].
    + destruct H as [H | []]. discriminate.
    + destruct H as [H | H]; [discriminate |]. eapply setCookie_configured. exact H.
    + eapply setCookie_configured. exact H.
  - revert H. unfold Revoke, FromContext.
    destruct (ctx_session ctx) as [s |]; simpl; [| intros []].
    unfold DeleteByID, bind, emit, ret; simpl.
    destruct (st_DeleteByID (store m) (ID s)); simpl.
    + intros [H | []]. discriminate.
    + intros [H | H]; [discriminate |]. rewrite ?app_nil_r in H.
      destruct (deleteCookie_only_cookie m now _ H) as [c' [Hc Hconf]].
      injection Hc as <-. exact Hconf.
  - revert H. unfold RevokeAll, DeleteByUserKey, bind, emit, ret; simpl.
    destruct (st_DeleteByUserKey (store m) key []); simpl.
    + intros [H | []]. discriminate.
    + intros [H | H]; [discriminate |]. rewrite ?app_nil_r in H.
      destruct (deleteCookie_only_cookie m now _ H) as [c' [Hc Hconf]].
      injection Hc as <-. exact Hconf.
Qed.

Lemma written_cookies_configured_witness :
  (In (EvSetCookie deletion_cookie_2026)
      (snd (Init (mk_manager alice_store) now2026 alice_request "alice"))
   \/ In (EvSetCookie deletion_cookie_2026)
        (snd (Revoke (mk_manager alice_store) now2026 alice_ctx))
   \/ In (EvSetCookie deletion_cookie_2026)
        (snd (RevokeAll (mk_manager alice_store) now2026 alice_ctx "alice")))
  /\ configured_cookie (mk_manager alice_store) deletion_cookie_2026.
Proof.
  assert (Hin : In (EvSetCookie deletion_cookie_2026)
                  (snd (Init (mk_manager alice_store) now2026 alice_request "alice"))
                \/ In (EvSetCookie deletion_cookie_2026)
                  (snd (Revoke (mk_manager alice_store) now2026 alice_ctx))
                \/ In (EvSetCookie deletion_cookie_2026)
                  (snd (RevokeAll (mk_manager alice_store) now2026 alice_ctx "alice"))).
  { right. left. simpl. right. left. reflexivity. }
  split; [exact Hin |].
  exact (written_cookies_configured (mk_manager alice_store) now2026 alice_request "alice"
           alice_ctx deletion_cookie_2026 Hin).
Defined.

(** Only [Auth] calls the rejection handler or the next handler: [Init],
    [Revoke], [RevokeOther], [RevokeAll] and [FetchAll] never do, and of
    these only [Init] creates a session in the store. *)
Theorem operations_never_call_handlers (m : Manager) (now : Time) (r : Request)
  (key : string) (ctx : Context) :
  filter is_handler_call (snd (Init m now r key)) = []
  /\ filter is_handler_call (snd (Revoke m now ctx)) = []
  /\ filter is_handler_call (snd (RevokeOther m ctx key)) = []
  /\ filter is_handler_call (snd (RevokeAll m now ctx key)) = []
  /\ filter is_handler_call (snd (FetchAll m ctx key)) = []
  /\ filter is_create (snd (Revoke m now ctx)) = []
  /\ filter is_create (snd (RevokeOther m ctx key)) = []
  /\ filter is_create (snd (RevokeAll m now ctx key)) = []
  /\ filter is_create (snd (FetchAll m ctx key)) = [].
Proof.
  assert (HR : snd (Revoke m now ctx) = []
               \/ snd (Revoke m now ctx) = [EvDeleteByID (ID (fst (FromContext ctx)))]
               \/ snd (Revoke m now ctx)
                  = EvDeleteByID (ID (fst (FromContext ctx))) :: snd (deleteCookie m now)).
  { unfold Revoke, FromContext. destruct (ctx_session ctx) as [s |]; simpl; [| left; reflexivity].
    unfold DeleteByID, bind, emit, ret; simpl.
    destruct (st_DeleteByID (store m) (ID s)); [right; left | right; right]; reflexivity. }
  assert (HA : snd (RevokeAll m now ctx key) = [EvDeleteByUserKey key []]
               \/ snd (RevokeAll m now ctx key)
                  = EvDeleteByUserKey key [] :: snd (deleteCookie m now)).
  { unfold RevokeAll, DeleteByUserKey, bind, emit, ret; simpl.
    destruct (st_DeleteByUserKey (store m) key []); [left | right]; reflexivity. }
  assert (HO : snd (RevokeOther m ctx key) = [EvDeleteByUserKey key [ID (fst (FromContext ctx))]]).
  { unfold RevokeOther. destruct (FromContext ctx). reflexivity. }
  assert (HF : snd (FetchAll m ctx key) = [EvFetchByUserKey key]).
  { unfold FetchAll, FetchByUserKey, bind, emit, ret; simpl.
    destruct (st_FetchByUserKey (store m) key) as [[l |] [e |]]; simpl; try reflexivity.
    destruct (FromContext ctx) as [cs [|]]; reflexivity. }
  rewrite HO, HF.
  split; [rewrite Init_trace; destruct (After _ 0); [destruct (st_Create _ _) |]; reflexivity |].
  split; [destruct HR as [-> | [-> | ->]]; reflexivity |].
  split; [reflexivity |].
  split; [destruct HA as [-> | ->]; reflexivity |].
  split; [reflexivity |].
  split; [destruct HR as [-> | [-> | ->]]; reflexivity |].
  split; [reflexivity |].
  split; [destruct HA as [-> | ->]; reflexivity |].
  reflexivity.
Qed.
